(** * MCAD Utility: the conversion functions of [mcad.utils.v1-0.js]

    The library is one namespace object [mcad] holding nine pure functions
    on JavaScript numbers, that is, on IEEE-754 binary64 floats.  This
    development embeds them in Rocq and settles the round-trip, endpoint
    and degenerate-input properties of the specification.

    The code is embedded on binary64 floats, rounding and overflow
    included:
    - [Module mcad64] holds the six functions that only use [+ - * /];
    - [Module mcad64_math] holds the three functions that call [Math.log],
      [Math.exp] and [Math.pow].  The language fixes the special values of
      these functions and leaves their results on ordinary arguments to the
      implementation, so they are parameters there;
    - [Module Reference] gives the correctly rounded results of the [Math]
      functions at the arguments met in the counterexamples.

    Statements that are decided by the special values alone (NaN, the
    infinities, zero divisors) are also proved on a second embedding,
    [Module mcad] over [JSNumber.number], where a number is NaN, an
    infinity or a finite value carried by a real and finite values are
    computed exactly.  That model drops rounding, overflow and the sign of
    zero; it is used for nothing that depends on them. *)

From Stdlib Require Import Reals Lra Lia Bool ZArith.
From Stdlib Require PrimFloat Floats.

Local Open Scope R_scope.

(** ** Numbers *)

Module JSNumber.

(** [Inf false] is [+Infinity], [Inf true] is [-Infinity]. *)
Inductive number : Type :=
| NaN : number
| Inf (neg : bool) : number
| Fin (r : R) : number.

Definition Rneg (r : R) : bool := if Rlt_dec r 0 then true else false.
Definition Rzero (r : R) : bool := if Req_dec_T r 0 then true else false.

(** Unary minus. *)
Definition opp (x : number) : number :=
  match x with
  | NaN => NaN
  | Inf s => Inf (negb s)
  | Fin r => Fin (- r)
  end.

(** [x + y]: infinities of opposite sign add up to NaN. *)
Definition add (x y : number) : number :=
  match x, y with
  | NaN, _ | _, NaN => NaN
  | Inf a, Inf b => if Bool.eqb a b then Inf a else NaN
  | Inf a, Fin _ => Inf a
  | Fin _, Inf b => Inf b
  | Fin a, Fin b => Fin (a + b)
  end.

(** [x - y] is [x + (-y)], as the language defines it. *)
Definition sub (x y : number) : number := add x (opp y).

(** [x * y]: an infinity times zero is NaN, otherwise signs multiply. *)
Definition mul (x y : number) : number :=
  match x, y with
  | NaN, _ | _, NaN => NaN
  | Inf a, Inf b => Inf (xorb a b)
  | Inf a, Fin r => if Rzero r then NaN else Inf (xorb a (Rneg r))
  | Fin r, Inf b => if Rzero r then NaN else Inf (xorb (Rneg r) b)
  | Fin a, Fin b => Fin (a * b)
  end.

(** [x / y]: [0/0] and [Infinity/Infinity] are NaN, a non-zero value over
    zero is an infinity, a finite value over an infinity is zero. *)
Definition div (x y : number) : number :=
  match x, y with
  | NaN, _ | _, NaN => NaN
  | Inf _, Inf _ => NaN
  | Inf a, Fin r => Inf (xorb a (Rneg r))
  | Fin _, Inf _ => Fin 0
  | Fin a, Fin b =>
      if Rzero b then (if Rzero a then NaN else Inf (Rneg a))
      else Fin (a / b)
  end.

(** [Math.log]: NaN below zero, [-Infinity] at zero. *)
Definition Math_log (x : number) : number :=
  match x with
  | NaN => NaN
  | Inf false => Inf false
  | Inf true => NaN
  | Fin r => if Rneg r then NaN else if Rzero r then Inf true else Fin (ln r)
  end.

(** [Math.exp]: zero at [-Infinity]. *)
Definition Math_exp (x : number) : number :=
  match x with
  | NaN => NaN
  | Inf false => Inf false
  | Inf true => Fin 0
  | Fin r => Fin (exp r)
  end.

Definition is_integer (r : R) : bool :=
  if Req_dec_T r (IZR (Int_part r)) then true else false.

Definition is_odd_integer (r : R) : bool :=
  is_integer r && Z.odd (Int_part r).

Definition Rcompare_abs_1 (r : R) : comparison :=
  if Rlt_dec 1 (Rabs r) then Gt
  else if Req_dec_T (Rabs r) 1 then Eq else Lt.

(** [Math.pow base exponent], case by case as the language lists them. *)
Definition Math_pow (base exponent : number) : number :=
  match exponent with
  | NaN => NaN
  | Fin y =>
      if Rzero y then Fin 1 else
      match base with
      | NaN => NaN
      | Inf false => if Rneg y then Fin 0 else Inf false
      | Inf true => if Rneg y then Fin 0 else Inf (is_odd_integer y)
      | Fin x =>
          if Rzero x then (if Rneg y then Inf false else Fin 0)
          else if Rneg x then
            (if is_integer y then Fin (powerRZ x (Int_part y)) else NaN)
          else Fin (Rpower x y)
      end
  | Inf s =>
      match base with
      | NaN => NaN
      | Inf _ => if s then Fin 0 else Inf false
      | Fin x =>
          if Rzero x then (if s then Inf false else Fin 0)
          else match Rcompare_abs_1 x with
               | Gt => if s then Fin 0 else Inf false
               | Eq => NaN
               | Lt => if s then Inf false else Fin 0
               end
      end
  end.

(** The comparison [x < y] of the language: false as soon as one side is
    NaN. *)
Definition lt (x y : number) : Prop :=
  match x, y with
  | NaN, _ | _, NaN => False
  | Inf a, Inf b => a = true /\ b = false
  | Inf a, Fin _ => a = true
  | Fin _, Inf b => b = false
  | Fin a, Fin b => a < b
  end.


End JSNumber.

Import JSNumber.

Declare Scope js_scope.
Delimit Scope js_scope with js.
Bind Scope js_scope with number.
Infix "+" := add : js_scope.
Infix "-" := sub : js_scope.
Infix "*" := mul : js_scope.
Infix "/" := div : js_scope.
Infix "<" := lt : js_scope.

(** ** The namespace [mcad] *)

Module mcad.

Local Open Scope js_scope.

Definition unsignedNormToParam (t min max : number) : number :=
  min + ((max - min) * t).

Definition paramToUnsignedNorm (p min max : number) : number :=
  (p - min) / (max - min).

Definition unsignedNtoSignedN (t : number) : number :=
  t * Fin 2 - Fin 1.

Definition signedNtoUnsignedN (t : number) : number :=
  (t + Fin 1) / Fin 2.

(** [this.f(...)] inside the namespace object is a call of the sibling
    function [f]. *)
Definition signedNormToParam (t min max : number) : number :=
  unsignedNormToParam (signedNtoUnsignedN t) min max.

Definition paramToSignedNorm (p min max : number) : number :=
  unsignedNtoSignedN (paramToUnsignedNorm p min max).

Definition unsignedNormToLog (t min max : number) : number :=
  let minv := Math_log min in
  let maxv := Math_log max in
  let scale := maxv - minv in
  Math_exp (scale * t + minv).

Definition logToUnsignedNorm (p min max : number) : number :=
  let minv := Math_log min in
  let maxv := Math_log max in
  let scale := maxv - minv in
  (Math_log p - minv) / scale.

Definition midiNoteToHz (noteNumber : number) : number :=
  let f_0 := Fin 440 in
  let MidA := Fin 69 in
  let n := noteNumber - MidA in
  let a := Math_pow (Fin 2) (Fin 1 / Fin 12) in
  f_0 * Math_pow a n.

End mcad.

Import mcad.

(** ** The arithmetic functions on binary64 floats

    The six functions that only use arithmetic, with the operators of the
    language taken as the IEEE-754 binary64 operations, rounding
    included.  They are executable. *)

Module mcad64.

Import PrimFloat.
Local Open Scope float_scope.

Definition unsignedNormToParam (t min max : float) : float :=
  min + ((max - min) * t).

Definition paramToUnsignedNorm (p min max : float) : float :=
  (p - min) / (max - min).

Definition unsignedNtoSignedN (t : float) : float :=
  t * 2 - 1.

Definition signedNtoUnsignedN (t : float) : float :=
  (t + 1) / 2.

Definition signedNormToParam (t min max : float) : float :=
  unsignedNormToParam (signedNtoUnsignedN t) min max.

Definition paramToSignedNorm (p min max : float) : float :=
  unsignedNtoSignedN (paramToUnsignedNorm p min max).

End mcad64.

(** ** The functions that call [Math.log], [Math.exp] and [Math.pow]

    The language leaves the results of these three functions on ordinary
    arguments to the implementation and fixes only their special values.
    They are therefore parameters of the embedding; the arithmetic around
    them is binary64. *)

Module mcad64_math.

Import PrimFloat.
Local Open Scope float_scope.

Section Engine.

Variables Math_log Math_exp : float -> float.
Variable Math_pow : float -> float -> float.

Definition unsignedNormToLog (t min max : float) : float :=
  let minv := Math_log min in
  let maxv := Math_log max in
  let scale := maxv - minv in
  Math_exp (scale * t + minv).

Definition logToUnsignedNorm (p min max : float) : float :=
  let minv := Math_log min in
  let maxv := Math_log max in
  let scale := maxv - minv in
  (Math_log p - minv) / scale.

Definition midiNoteToHz (noteNumber : float) : float :=
  let f_0 := 440 in
  let MidA := 69 in
  let n := noteNumber - MidA in
  let a := Math_pow 2 (1 / 12) in
  f_0 * Math_pow a n.

End Engine.

(** What the language fixes and the proofs use: [Math.exp] of either zero
    is 1, and [Math.pow] with a zero exponent is 1 whatever the base. *)
Definition exp_of_zero (Math_exp : float -> float) : Prop :=
  forall x : float, (x =? 0) = true -> Math_exp x = 1.


(** NaN in gives NaN out: [Math.log] and [Math.exp] of NaN, and [Math.pow]
    with a NaN exponent. *)
Definition NaN_to_NaN (Math_log Math_exp : float -> float)
  (Math_pow : float -> float -> float) : Prop :=
  Math_log nan = nan /\ Math_exp nan = nan /\
  forall x : float, Math_pow x nan = nan.

End mcad64_math.

(** ** Reference values of the [Math] functions

    The special values the language fixes, and the correctly rounded
    results at the few ordinary arguments that the counterexamples below
    evaluate.  An engine may return a neighbouring binary64 value where
    the exact result falls close to the middle between two of them, as for
    [exp 9.903487552536127].  At any other argument the reference
    functions say nothing (they return NaN there) and no statement depends
    on it. *)

Module Reference.

Import PrimFloat.
Local Open Scope float_scope.

(** ln 20 = 2.995732273553991, ln 20000 = 9.903487552536127,
    ln (1 + 2^-52) = 2.2204460492503128e-16. *)
Definition Math_log (x : float) : float :=
  if x =? 0 then neg_infinity
  else if x <? 0 then nan
  else if x =? infinity then infinity
  else if x =? 1 then 0
  else if x =? 20 then 0x1.7f7427b73e391p+1
  else if x =? 20000 then 0x1.3ce95eba4f8b4p+3
  else if x =? 0x1.0000000000001p+0 then 0x1.fffffffffffffp-53
  else nan.

(** exp 2.995732273553991 = 19.999999999999996,
    exp 9.903487552536127 = 19999.99999999998,
    exp 1.1102230246251564e-16 = 1. *)
Definition Math_exp (x : float) : float :=
  if x =? 0 then 1
  else if x =? infinity then infinity
  else if x =? neg_infinity then 0
  else if x =? 0x1.7f7427b73e391p+1 then 0x1.3ffffffffffffp+4
  else if x =? 0x1.3ce95eba4f8b4p+3 then 0x1.387fffffffffbp+14
  else if x =? 0x1.fffffffffffffp-54 then 1
  else nan.

(** 2^(1/12) = 1.0594630943592953 and
    1.0594630943592953^12 = 2.000000000000001. *)
Definition Math_pow (x y : float) : float :=
  if y =? 0 then 1
  else if is_nan y then nan
  else if (x =? 2) && (y =? 0x1.5555555555555p-4)
  then 0x1.0f38f92d97963p+0
  else if (x =? 0x1.0f38f92d97963p+0) && (y =? 12)
  then 0x1.0000000000002p+1
  else nan.

End Reference.

(** ** Shapes of binary64 values *)

Module SF64.

Import SpecFloat.

(** A zero or a non-zero finite value. *)
Definition SFfin (x : spec_float) : Prop :=
  match x with
  | S754_zero _ | S754_finite _ _ _ => True
  | _ => False
  end.

Definition SFzero (x : spec_float) : Prop :=
  match x with
  | S754_zero _ => True
  | _ => False
  end.

Definition SFnonzero (x : spec_float) : Prop :=
  match x with
  | S754_finite _ _ _ => True
  | _ => False
  end.
End SF64.

(** ** Comparison of numbers *)

Module JSCompare.

(** The comparison [x <= y] of the language: false as soon as one side is
    NaN, otherwise the negation of [y < x]. *)
Definition le (x y : number) : Prop :=
  match x, y with
  | NaN, _ | _, NaN => False
  | Inf a, Inf b => a = true \/ b = false
  | Inf a, Fin _ => a = true
  | Fin _, Inf b => b = false
  | Fin a, Fin b => a <= b
  end.

(** [lo <= x && x <= hi]. *)
Definition in_range (x lo hi : number) : Prop := le lo x /\ le x hi.

End JSCompare.

Import JSCompare.

Infix "<=" := le : js_scope.

(** * Special values, on exact finite values *)

(** ** Proof support *)

(** Case analysis on every sign or zero test on reals in the goal. *)
Ltac case_R :=
  repeat match goal with
    | |- context [Rlt_dec ?a ?b] => destruct (Rlt_dec a b)
    | |- context [Req_dec_T ?a ?b] => destruct (Req_dec_T a b)
    end.

Ltac unfold_js :=
  unfold unsignedNormToParam, paramToUnsignedNorm, unsignedNtoSignedN,
    signedNtoUnsignedN, signedNormToParam, paramToSignedNorm,
    unsignedNormToLog, logToUnsignedNorm, midiNoteToHz;
  cbv beta zeta;
  unfold Math_log, Math_exp, sub, add, mul, div, opp, Rzero, Rneg;
  cbv beta iota zeta.

Lemma Fin_eq (a b : R) : a = b -> Fin a = Fin b.
Proof. intros ->; reflexivity. Qed.

Lemma Rzero_false (r : R) : r <> 0 -> Rzero r = false.
Proof. unfold Rzero; case_R; [contradiction | reflexivity]. Qed.

Lemma Rzero_true (r : R) : r = 0 -> Rzero r = true.
Proof. unfold Rzero; case_R; [reflexivity | contradiction]. Qed.

Lemma Rneg_false (r : R) : 0 <= r -> Rneg r = false.
Proof. unfold Rneg; case_R; [lra | reflexivity]. Qed.


(** On finite arguments the linear functions stay finite. *)
Lemma unsignedNormToParam_Fin (t lo hi : R) :
  unsignedNormToParam (Fin t) (Fin lo) (Fin hi) = Fin (lo + (hi - lo) * t).
Proof. unfold_js. apply Fin_eq. lra. Qed.

Lemma unsignedNtoSignedN_Fin (t : R) :
  unsignedNtoSignedN (Fin t) = Fin (t * 2 - 1).
Proof. unfold_js. apply Fin_eq. lra. Qed.

Lemma signedNtoUnsignedN_Fin (t : R) :
  signedNtoUnsignedN (Fin t) = Fin ((t + 1) / 2).
Proof. unfold_js. case_R; solve [lra | reflexivity]. Qed.


Lemma signedNormToParam_Fin (t lo hi : R) :
  signedNormToParam (Fin t) (Fin lo) (Fin hi)
  = Fin (lo + (hi - lo) * ((t + 1) / 2)).
Proof.
  unfold signedNormToParam.
  rewrite signedNtoUnsignedN_Fin. apply unsignedNormToParam_Fin.
Qed.

(** ** Degenerate inputs

    No function of the library validates its arguments.  The operators and
    the [Math] functions it uses are defined on every number and never
    throw, so each function returns a number whatever numbers it is given;
    the results below say which one for the degenerate ranges. *)

Lemma add_NaN_r (x : number) : (x + NaN)%js = NaN.
Proof. destruct x; reflexivity. Qed.

Lemma mul_NaN_l (x : number) : (NaN * x)%js = NaN.
Proof. reflexivity. Qed.

Lemma div_NaN_r (x : number) : (x / NaN)%js = NaN.
Proof. destruct x; reflexivity. Qed.

Lemma sub_NaN_r (x : number) : (x - NaN)%js = NaN.
Proof. unfold sub. apply add_NaN_r. Qed.

Lemma sub_NaN_l (x : number) : (NaN - x)%js = NaN.
Proof. reflexivity. Qed.


















(** ** The sign-range shift *)

(** X8: the sign-range shift maps the ranges onto each other:
    [unsignedNtoSignedN] sends [[0,1]] into [[-1,1]] and
    [signedNtoUnsignedN] sends [[-1,1]] into [[0,1]]. *)
Theorem sign_shift_range (t : R) :
  (0 <= t <= 1 -> in_range (unsignedNtoSignedN (Fin t)) (Fin (-1)) (Fin 1)) /\
  (-1 <= t <= 1 -> in_range (signedNtoUnsignedN (Fin t)) (Fin 0) (Fin 1)).
Proof.
  rewrite unsignedNtoSignedN_Fin, signedNtoUnsignedN_Fin.
  unfold in_range; simpl. split; intros Ht; split; lra.
Qed.

Lemma sign_shift_range_witness :
  in_range (unsignedNtoSignedN (Fin (1 / 4))) (Fin (-1)) (Fin 1) /\
  in_range (signedNtoUnsignedN (Fin (-1 / 2))) (Fin 0) (Fin 1).
Proof.
  split.
  - apply (proj1 (sign_shift_range (1 / 4))). lra.
  - apply (proj2 (sign_shift_range (-1 / 2))). lra.
Defined.

(** ** MIDI notes *)

Lemma Rpower_pos (x y : R) : 0 < Rpower x y.
Proof. unfold Rpower. apply exp_pos. Qed.

Lemma Int_part_IZR (z : Z) : Int_part (IZR z) = z.
Proof. symmetry. apply Int_part_spec. lra. Qed.

(** [Math_pow] on a few of the special cases the language lists. *)
Example Math_pow_examples :
  Math_pow (Fin (-2)) (Fin 3) = Fin (-8) /\
  Math_pow (Fin (-2)) (Fin (1 / 2)) = NaN /\
  Math_pow NaN (Fin 0) = Fin 1 /\
  Math_pow (Fin 1) NaN = NaN /\
  Math_pow (Fin 2) (Inf true) = Fin 0 /\
  Math_pow (Fin (-1)) (Inf false) = NaN /\
  Math_pow (Fin 0) (Fin (-1)) = Inf false /\
  Math_pow (Inf true) (Fin 3) = Inf true /\
  Math_pow (Inf true) (Fin 2) = Inf false.
Proof.
  assert (H12 : Int_part (1 / 2) = 0%Z)
    by (symmetry; apply Int_part_spec; lra).
  unfold Math_pow, is_odd_integer, is_integer, Rcompare_abs_1, Rzero, Rneg.
  rewrite H12, (Int_part_IZR 3), (Int_part_IZR 2).
  rewrite (Rabs_pos_eq 2), (Rabs_left (-1)) by lra.
  repeat split; case_R; try lra; try reflexivity.
  apply Fin_eq. simpl. lra.
Qed.

(** The semitone ratio [a] of the source. *)
Lemma semitone_ratio :
  Math_pow (Fin 2) (Fin 1 / Fin 12)%js = Fin (Rpower 2 (1 / 12)).
Proof.
  unfold div. rewrite (Rzero_false 12) by lra.
  unfold Math_pow.
  rewrite (Rzero_false (1 / 12)), (Rzero_false 2), (Rneg_false 2) by lra.
  reflexivity.
Qed.

Lemma ln_2_pos : 0 < ln 2.
Proof. pose proof ln_lt_2. lra. Qed.

Lemma semitone_ratio_gt_1 : 1 < Rpower 2 (1 / 12).
Proof.
  unfold Rpower.
  assert (H : exp 0 < exp (1 / 12 * ln 2)).
  { apply exp_increasing. pose proof ln_2_pos. nra. }
  rewrite exp_0 in H. exact H.
Qed.

(** X16: on the special values, [midiNoteToHz] gives NaN for NaN,
    [+Infinity] for [+Infinity] and 0 for [-Infinity]. *)
Theorem midiNoteToHz_special_values :
  midiNoteToHz NaN = NaN /\
  midiNoteToHz (Inf false) = Inf false /\
  midiNoteToHz (Inf true) = Fin 0.
Proof.
  assert (Hgt : Rcompare_abs_1 (Rpower 2 (1 / 12)) = Gt).
  { unfold Rcompare_abs_1. pose proof semitone_ratio_gt_1 as H.
    rewrite Rabs_pos_eq by lra.
    destruct (Rlt_dec 1 (Rpower 2 (1 / 12))); [reflexivity | contradiction]. }
  assert (Hnz : Rzero (Rpower 2 (1 / 12)) = false).
  { apply Rzero_false. pose proof (Rpower_pos 2 (1 / 12)). lra. }
  unfold midiNoteToHz; cbv zeta. rewrite semitone_ratio.
  split; [reflexivity | split].
  - unfold sub, opp, add, Math_pow. rewrite Hnz, Hgt.
    unfold mul. rewrite Rzero_false, Rneg_false by lra. reflexivity.
  - unfold sub, opp, add, Math_pow. rewrite Hnz, Hgt.
    unfold mul. apply Fin_eq. ring.
Qed.

(** ** NaN in, NaN out *)

Lemma mul_NaN_r (x : number) : (x * NaN)%js = NaN.
Proof. destruct x; reflexivity. Qed.

Lemma div_NaN_l (x : number) : (NaN / x)%js = NaN.
Proof. reflexivity. Qed.

Lemma add_NaN_l (x : number) : (NaN + x)%js = NaN.
Proof. reflexivity. Qed.

Ltac nan_out :=
  cbv beta zeta;
  repeat first
    [ rewrite add_NaN_r | rewrite add_NaN_l | rewrite sub_NaN_r
    | rewrite sub_NaN_l | rewrite mul_NaN_r | rewrite mul_NaN_l
    | rewrite div_NaN_r | rewrite div_NaN_l
    | change (Math_log NaN) with NaN | change (Math_exp NaN) with NaN ];
  try reflexivity.

(** X18: no function hides a NaN: as soon as one argument is NaN, whatever
    the other arguments are, the result of each of the nine functions is
    NaN. *)
Theorem NaN_propagates (x y : number) :
  (unsignedNormToParam NaN x y = NaN /\
   unsignedNormToParam x NaN y = NaN /\
   unsignedNormToParam x y NaN = NaN) /\
  (paramToUnsignedNorm NaN x y = NaN /\
   paramToUnsignedNorm x NaN y = NaN /\
   paramToUnsignedNorm x y NaN = NaN) /\
  (unsignedNtoSignedN NaN = NaN /\ signedNtoUnsignedN NaN = NaN) /\
  (signedNormToParam NaN x y = NaN /\
   signedNormToParam x NaN y = NaN /\
   signedNormToParam x y NaN = NaN) /\
  (paramToSignedNorm NaN x y = NaN /\
   paramToSignedNorm x NaN y = NaN /\
   paramToSignedNorm x y NaN = NaN) /\
  (unsignedNormToLog NaN x y = NaN /\
   unsignedNormToLog x NaN y = NaN /\
   unsignedNormToLog x y NaN = NaN) /\
  (logToUnsignedNorm NaN x y = NaN /\
   logToUnsignedNorm x NaN y = NaN /\
   logToUnsignedNorm x y NaN = NaN) /\
  midiNoteToHz NaN = NaN.
Proof.
  unfold signedNormToParam, paramToSignedNorm.
  unfold unsignedNormToParam, paramToUnsignedNorm, unsignedNtoSignedN,
    signedNtoUnsignedN, unsignedNormToLog, logToUnsignedNorm.
  repeat split; nan_out.
Qed.

(** ** How the functions compose *)

Lemma add_comm (x y : number) : (x + y)%js = (y + x)%js.
Proof.
  destruct x as [ | [ | ] | a ], y as [ | [ | ] | b ]; try reflexivity.
  simpl. apply Fin_eq, Rplus_comm.
Qed.

(** X20: the logarithmic pair is the linear pair between [Math.log] and
    [Math.exp], for all numbers: [unsignedNormToLog] interpolates linearly
    between the logarithms of the bounds and exponentiates, and
    [logToUnsignedNorm] takes the linear ratio of the logarithms. *)
Theorem log_pair_through_linear (x lo hi : number) :
  unsignedNormToLog x lo hi
  = Math_exp (unsignedNormToParam x (Math_log lo) (Math_log hi)) /\
  logToUnsignedNorm x lo hi
  = paramToUnsignedNorm (Math_log x) (Math_log lo) (Math_log hi).
Proof.
  unfold unsignedNormToLog, logToUnsignedNorm, unsignedNormToParam,
    paramToUnsignedNorm; cbv zeta.
  split; [ | reflexivity].
  f_equal. apply add_comm.
Qed.

(** ** Equal bounds in the linear mapping *)

(** X21: with [max == min] the linear mapping loses [t]:
    [unsignedNormToParam] and [signedNormToParam] return [min] for every
    finite [t], and NaN for an infinite [t]. *)
Theorem linear_equal_bounds (m : R) :
  (forall t : R,
      unsignedNormToParam (Fin t) (Fin m) (Fin m) = Fin m /\
      signedNormToParam (Fin t) (Fin m) (Fin m) = Fin m) /\
  (forall s : bool,
      unsignedNormToParam (Inf s) (Fin m) (Fin m) = NaN /\
      signedNormToParam (Inf s) (Fin m) (Fin m) = NaN).
Proof.
  split.
  - intros t. rewrite signedNormToParam_Fin, unsignedNormToParam_Fin.
    split; apply Fin_eq; ring.
  - intros s. unfold signedNormToParam, signedNtoUnsignedN,
      unsignedNormToParam, sub, opp, add, div, mul.
    rewrite (Rzero_true (m + - m)) by ring. split; reflexivity.
Qed.

(** * The code on binary64 floats

    The facts of this part hold for the binary64 operations themselves,
    rounding included; they rest on the specification of the primitive
    floats by [SpecFloat]. *)

(** ** The documented examples *)

Module mcad64_examples.

Import PrimFloat.

(** The examples of the source's documentation, evaluated with the
    binary64 operations: each gives the documented value exactly. *)
Example mcad64_documented_examples :
  (mcad64.unsignedNormToParam 0.5 200 400 = 300
   /\ mcad64.paramToUnsignedNorm 300 200 400 = 0.5
   /\ mcad64.unsignedNtoSignedN 0.5 = 0
   /\ mcad64.signedNtoUnsignedN 0 = 0.5
   /\ mcad64.signedNormToParam 0 200 400 = 300
   /\ mcad64.paramToSignedNorm 300 200 400 = 0)%float.
Proof. vm_compute. repeat split. Qed.

End mcad64_examples.

Module mcad64_facts.

Import PrimFloat SpecFloat FloatOps FloatAxioms SF64.

(** ** Proof support *)

(** A value minus itself is the positive zero, or NaN when the value is
    infinite or NaN. *)
Lemma SF64sub_diag (x : spec_float) :
  SF64sub x x = S754_nan \/ SF64sub x x = S754_zero false.
Proof.
  destruct x as [s | s | | s m e].
  - right. destruct s; reflexivity.
  - left. destruct s; reflexivity.
  - left. reflexivity.
  - right. cbv [SF64sub SFsub]. rewrite Z.sub_diag. reflexivity.
Qed.

Lemma SF64div_by_diag (x y : spec_float) :
  SF64div x (SF64sub y y) = S754_nan \/
  exists s, SF64div x (SF64sub y y) = S754_infinity s.
Proof.
  destruct (SF64sub_diag y) as [-> | ->].
  - left. destruct x; reflexivity.
  - destruct x as [s | s | | s m e]; simpl; eauto.
Qed.

Lemma is_finite_false (r : float) :
  (Prim2SF r = S754_nan \/ exists s, Prim2SF r = S754_infinity s) ->
  is_finite r = false.
Proof.
  unfold is_finite, is_nan, is_infinity.
  rewrite !eqb_spec, abs_spec.
  intros [-> | [s ->]].
  - reflexivity.
  - destruct s; reflexivity.
Qed.

Lemma is_finite_SFfin (r : float) : is_finite r = true -> SFfin (Prim2SF r).
Proof.
  unfold is_finite, is_nan, is_infinity.
  rewrite !eqb_spec, abs_spec.
  destruct (Prim2SF r) as [s | s | | s m e]; simpl; auto.
  - destruct s; discriminate.
  - discriminate.
Qed.

Lemma is_finite_nonzero (r : float) :
  is_finite r = true -> (r =? 0)%float = false -> SFnonzero (Prim2SF r).
Proof.
  intros Hf Hz. apply is_finite_SFfin in Hf.
  rewrite eqb_spec in Hz.
  destruct (Prim2SF r) as [s | s | | s m e]; simpl in *; auto; discriminate.
Qed.

Lemma eqb_zero (r : float) : SFzero (Prim2SF r) -> (r =? 0)%float = true.
Proof.
  intros H. rewrite eqb_spec.
  destruct (Prim2SF r); simpl in *; try contradiction. reflexivity.
Qed.

Lemma SF64sub_SFfin (x y : spec_float) :
  SFfin (SF64sub x y) -> SFfin x /\ SFfin y.
Proof.
  destruct x as [a | a | | a m e], y as [b | b | | b n f];
    try (intros _; simpl; tauto);
    cbv [SF64sub SFsub SFfin]; try destruct a; try destruct b; tauto.
Qed.



Lemma SFdiv_core_self (m : positive) (e : Z) :
  SFdiv_core_binary prec emax (Zpos m) e (Zpos m) e
  = (9007199254740992%Z, (-53)%Z, loc_Exact).
Proof.
  unfold SFdiv_core_binary. rewrite !Z.sub_diag.
  change (Z.min (fexp prec emax 0) 0) with (-53)%Z.
  change (0 - -53)%Z with 53%Z. cbv beta iota zeta.
  rewrite Z.shiftl_mul_pow2 by lia.
  change (2 ^ 53)%Z with 9007199254740992%Z.
  rewrite (surjective_pairing (Z.div_eucl _ _)).
  change (fst (Z.div_eucl ?a ?b)) with (Z.div a b).
  change (snd (Z.div_eucl ?a ?b)) with (Z.modulo a b).
  rewrite Z.mul_comm, Z.div_mul, Z.mod_mul by lia.
  unfold new_location, new_location_even, new_location_odd.
  destruct (Z.even (Z.pos m)); reflexivity.
Qed.

Lemma SF64div_self (s : bool) (m : positive) (e : Z) :
  SF64div (S754_finite s m e) (S754_finite s m e) = Prim2SF 1.
Proof.
  cbv [SF64div SFdiv]. rewrite SFdiv_core_self.
  destruct s; vm_compute; reflexivity.
Qed.







Lemma div_zero_nonzero (x y : float) :
  SFzero (Prim2SF x) -> SFnonzero (Prim2SF y) -> SFzero (Prim2SF (x / y)).
Proof.
  rewrite div_spec. intros Hx Hy.
  destruct (Prim2SF x); try contradiction.
  destruct (Prim2SF y); try contradiction. exact I.
Qed.

Lemma div_self (x : float) :
  SFnonzero (Prim2SF x) -> (x / x)%float = 1%float.
Proof.
  intros Hx. apply Prim2SF_inj. rewrite div_spec.
  destruct (Prim2SF x); try contradiction. apply SF64div_self.
Qed.

Lemma sub_self_finite (x : float) :
  SFfin (Prim2SF x) -> SFzero (Prim2SF (x - x)).
Proof.
  rewrite sub_spec. intros Hx.
  destruct (Prim2SF x) as [s | | | s m e]; try contradiction.
  - destruct s; exact I.
  - cbv [SF64sub SFsub]. rewrite Z.sub_diag. exact I.
Qed.


(** [z * 2 - 1] is [-1] for a zero [z]. *)
Lemma shift_of_zero (z : float) :
  SFzero (Prim2SF z) -> (z * 2 - 1)%float = (-1)%float.
Proof.
  intros Hz. apply Prim2SF_inj. rewrite sub_spec, mul_spec.
  destruct (Prim2SF z) as [s | | | ]; try contradiction.
  destruct s; reflexivity.
Qed.

(** ** The linear pair on binary64 *)










(** ** The sign-range shift on binary64 *)




(** ** The signed linear pair on binary64 *)




(** ** The logarithmic pair and the MIDI conversion on binary64 *)

Lemma Reference_exp_of_zero : mcad64_math.exp_of_zero Reference.Math_exp.
Proof. intros x H. unfold Reference.Math_exp. rewrite H. reflexivity. Qed.



(** A zero plus a finite [l] is [l], up to the sign of a zero. *)
Lemma zero_plus (z l : float) :
  SFzero (Prim2SF z) -> SFfin (Prim2SF l) ->
  (z + l)%float = l \/ (SFzero (Prim2SF (z + l)) /\ SFzero (Prim2SF l)).
Proof.
  intros Hz Hl.
  destruct (Prim2SF l) as [b | | | b m e] eqn:El; try contradiction.
  - right. split; [ | exact I]. rewrite add_spec, El.
    destruct (Prim2SF z) as [a | | | ]; try contradiction.
    destruct a, b; exact I.
  - left. apply Prim2SF_inj. rewrite add_spec, El.
    destruct (Prim2SF z); try contradiction. reflexivity.
Qed.

(** An engine that sends both zeros to 1 cannot tell [z + l] from [l]. *)
Lemma exp_zero_plus (Math_exp : float -> float) (z l : float) :
  mcad64_math.exp_of_zero Math_exp ->
  SFzero (Prim2SF z) -> SFfin (Prim2SF l) ->
  Math_exp (z + l)%float = Math_exp l.
Proof.
  intros He Hz Hl.
  destruct (zero_plus z l Hz Hl) as [-> | [H1 H2]]; [reflexivity | ].
  rewrite (He _ (eqb_zero _ H1)), (He _ (eqb_zero _ H2)). reflexivity.
Qed.

Lemma mul_zero_l (z t : float) :
  SFzero (Prim2SF z) -> SFfin (Prim2SF t) -> SFzero (Prim2SF (z * t)).
Proof.
  rewrite mul_spec. intros Hz Ht.
  destruct (Prim2SF z); try contradiction.
  destruct (Prim2SF t); try contradiction; exact I.
Qed.




(** C10, as stated, fails: with [min = max = 20] the result is
    [Math.exp (Math.log 20)], which is 19.999999999999996 with the
    correctly rounded logarithm and exponential, not 20. *)
Lemma log_equal_bounds_not_min :
  mcad64_math.unsignedNormToLog Reference.Math_log Reference.Math_exp
    0.5 20 20 = 0x1.3ffffffffffffp+4%float /\
  (mcad64_math.unsignedNormToLog Reference.Math_log Reference.Math_exp
     0.5 20 20 =? 20)%float = false.
Proof. vm_compute. split; reflexivity. Qed.

(** C10, amended: with [max == min], for whatever [Math.log] and
    [Math.exp] the engine provides, [unsignedNormToLog t min max] is the
    constant [Math.exp (Math.log min)] for every finite [t], provided
    [Math.log min] is finite (it equals [min] only up to the rounding of
    the two functions), and [logToUnsignedNorm p min max] divides by a zero
    scale: it is NaN or an infinity for every [p]. *)
Theorem log_equal_bounds_binary64 (Math_log Math_exp : float -> float) :
  mcad64_math.exp_of_zero Math_exp ->
  (forall t m : float,
      is_finite t = true -> is_finite (Math_log m) = true ->
      mcad64_math.unsignedNormToLog Math_log Math_exp t m m
      = Math_exp (Math_log m)) /\
  (forall p m : float,
      is_finite (mcad64_math.logToUnsignedNorm Math_log p m m) = false).
Proof.
  intros He. split.
  - intros t m Ht Hl. unfold mcad64_math.unsignedNormToLog; cbv zeta.
    apply is_finite_SFfin in Ht. apply is_finite_SFfin in Hl.
    apply exp_zero_plus; [exact He | | exact Hl].
    apply mul_zero_l; [ | exact Ht]. apply sub_self_finite. exact Hl.
  - intros p m. unfold mcad64_math.logToUnsignedNorm; cbv zeta.
    apply is_finite_false. rewrite div_spec, (sub_spec (Math_log m)).
    apply SF64div_by_diag.
Qed.

Lemma log_equal_bounds_binary64_witness :
  mcad64_math.unsignedNormToLog Reference.Math_log Reference.Math_exp
    0.5 20 20 = Reference.Math_exp (Reference.Math_log 20) /\
  is_finite (mcad64_math.logToUnsignedNorm Reference.Math_log 20 20 20)
  = false.
Proof.
  destruct (log_equal_bounds_binary64 Reference.Math_log Reference.Math_exp
              Reference_exp_of_zero) as [Hc Hd].
  split; [ | apply Hd].
  apply Hc; vm_compute; reflexivity.
Defined.







(** The reference value 1.0594630943592953 is [4771397596969315 * 2^-52],
    and its twelfth power in exact arithmetic lies strictly between
    [2 + 1.5 * 2^-51] and [2 + 2.5 * 2^-51]: the nearest binary64 value is
    [2 + 2 * 2^-51], the reference value 2.000000000000001, and not 2. *)
Lemma semitone_twelfth_power :
  Prim2SF 0x1.0f38f92d97963p+0 = S754_finite false 4771397596969315 (-52) /\
  Prim2SF 0x1.0000000000002p+1 = S754_finite false (2 ^ 52 + 2) (-51) /\
  ((2 ^ 53 + 3) * 2 ^ 572 < 4771397596969315 ^ 12
   < (2 ^ 53 + 5) * 2 ^ 572)%Z.
Proof. vm_compute. repeat split. Qed.




(** ** Equal bounds and NaN in the arithmetic functions *)

(** X24: on binary64 floats, for every [p] and every [m], finite or not,
    [paramToUnsignedNorm p m m] and [paramToSignedNorm p m m] are never a
    finite number: equal bounds always give NaN or an infinity. *)
Theorem equal_bounds_not_finite (p m : float) :
  is_finite (mcad64.paramToUnsignedNorm p m m) = false /\
  is_finite (mcad64.paramToSignedNorm p m m) = false.
Proof.
  assert (H : Prim2SF (mcad64.paramToUnsignedNorm p m m) = S754_nan \/
              exists s,
                Prim2SF (mcad64.paramToUnsignedNorm p m m) = S754_infinity s).
  { unfold mcad64.paramToUnsignedNorm.
    rewrite div_spec, (sub_spec m m). apply SF64div_by_diag. }
  split; [apply is_finite_false; exact H | ].
  apply is_finite_false.
  unfold mcad64.paramToSignedNorm, mcad64.unsignedNtoSignedN.
  rewrite sub_spec, mul_spec.
  destruct H as [-> | [s ->]].
  - left. reflexivity.
  - right. exists s. destruct s; reflexivity.
Qed.

Lemma SF64add_nan_r (x : spec_float) : SF64add x S754_nan = S754_nan.
Proof. destruct x; reflexivity. Qed.

Lemma SF64sub_nan_r (x : spec_float) : SF64sub x S754_nan = S754_nan.
Proof. destruct x; reflexivity. Qed.

Lemma SF64mul_nan_r (x : spec_float) : SF64mul x S754_nan = S754_nan.
Proof. destruct x; reflexivity. Qed.

Lemma SF64div_nan_r (x : spec_float) : SF64div x S754_nan = S754_nan.
Proof. destruct x; reflexivity. Qed.

Ltac nan_out64 :=
  apply Prim2SF_inj;
  repeat first [ rewrite add_spec | rewrite sub_spec
               | rewrite mul_spec | rewrite div_spec ];
  change (Prim2SF nan) with S754_nan;
  repeat first
    [ rewrite SF64add_nan_r | rewrite SF64sub_nan_r
    | rewrite SF64mul_nan_r | rewrite SF64div_nan_r
    | change (SF64add S754_nan ?a) with S754_nan
    | change (SF64sub S754_nan ?a) with S754_nan
    | change (SF64mul S754_nan ?a) with S754_nan
    | change (SF64div S754_nan ?a) with S754_nan ];
  reflexivity.

(** X25: on binary64 floats no arithmetic function hides a NaN: with NaN
    as any one argument, whatever the others, the result is NaN. *)
Theorem NaN_propagates64 (x y : float) :
  (mcad64.unsignedNormToParam nan x y = nan /\
   mcad64.unsignedNormToParam x nan y = nan /\
   mcad64.unsignedNormToParam x y nan = nan) /\
  (mcad64.paramToUnsignedNorm nan x y = nan /\
   mcad64.paramToUnsignedNorm x nan y = nan /\
   mcad64.paramToUnsignedNorm x y nan = nan) /\
  (mcad64.unsignedNtoSignedN nan = nan /\
   mcad64.signedNtoUnsignedN nan = nan) /\
  (mcad64.signedNormToParam nan x y = nan /\
   mcad64.signedNormToParam x nan y = nan /\
   mcad64.signedNormToParam x y nan = nan) /\
  (mcad64.paramToSignedNorm nan x y = nan /\
   mcad64.paramToSignedNorm x nan y = nan /\
   mcad64.paramToSignedNorm x y nan = nan).
Proof.
  unfold mcad64.signedNormToParam, mcad64.paramToSignedNorm,
    mcad64.unsignedNormToParam, mcad64.paramToUnsignedNorm,
    mcad64.unsignedNtoSignedN, mcad64.signedNtoUnsignedN.
  repeat split; nan_out64.
Qed.

(** ** Where the inverse functions send the bounds, on binary64 *)

(** X26: on binary64, whenever [max - min] is finite and non-zero,
    [paramToUnsignedNorm] sends [min] to a zero and [max] to exactly 1, and
    [paramToSignedNorm] sends [min] to exactly -1 and [max] to exactly
    1. *)
Theorem inverse_endpoints_binary64 (min max : float) :
  is_finite (max - min) = true ->
  (max - min =? 0)%float = false ->
  (mcad64.paramToUnsignedNorm min min max =? 0)%float = true /\
  mcad64.paramToUnsignedNorm max min max = 1%float /\
  mcad64.paramToSignedNorm min min max = (-1)%float /\
  mcad64.paramToSignedNorm max min max = 1%float.
Proof.
  intros Hf Hz.
  pose proof (is_finite_nonzero _ Hf Hz) as Hn.
  assert (Hmin : SFzero (Prim2SF (mcad64.paramToUnsignedNorm min min max))).
  { unfold mcad64.paramToUnsignedNorm.
    apply div_zero_nonzero; [ | exact Hn].
    apply sub_self_finite.
    apply is_finite_SFfin in Hf. rewrite sub_spec in Hf.
    apply (SF64sub_SFfin _ _ Hf). }
  assert (Hmax : mcad64.paramToUnsignedNorm max min max = 1%float).
  { unfold mcad64.paramToUnsignedNorm. apply div_self. exact Hn. }
  split; [apply eqb_zero; exact Hmin | ].
  split; [exact Hmax | ].
  unfold mcad64.paramToSignedNorm. split.
  - unfold mcad64.unsignedNtoSignedN. apply shift_of_zero. exact Hmin.
  - rewrite Hmax. vm_compute. reflexivity.
Qed.

Lemma inverse_endpoints_binary64_witness :
  (mcad64.paramToUnsignedNorm 20 20 20000 =? 0)%float = true /\
  mcad64.paramToUnsignedNorm 20000 20 20000 = 1%float /\
  mcad64.paramToSignedNorm 20 20 20000 = (-1)%float /\
  mcad64.paramToSignedNorm 20000 20 20000 = 1%float.
Proof.
  apply (inverse_endpoints_binary64 20%float 20000%float);
    vm_compute; reflexivity.
Defined.

(** X27: on binary64, for whatever [Math.log] the engine provides,
    whenever the scale [Math.log max - Math.log min] is finite and
    non-zero, [logToUnsignedNorm] sends [min] to a zero and [max] to
    exactly 1. *)
Theorem logToUnsignedNorm_endpoints_binary64 (Math_log : float -> float)
  (min max : float) :
  is_finite (Math_log max - Math_log min) = true ->
  (Math_log max - Math_log min =? 0)%float = false ->
  (mcad64_math.logToUnsignedNorm Math_log min min max =? 0)%float = true /\
  mcad64_math.logToUnsignedNorm Math_log max min max = 1%float.
Proof.
  intros Hf Hz.
  pose proof (is_finite_nonzero _ Hf Hz) as Hn.
  unfold mcad64_math.logToUnsignedNorm; cbv zeta. split.
  - apply eqb_zero, div_zero_nonzero; [ | exact Hn].
    apply sub_self_finite.
    apply is_finite_SFfin in Hf. rewrite sub_spec in Hf.
    apply (SF64sub_SFfin _ _ Hf).
  - apply div_self. exact Hn.
Qed.

Lemma logToUnsignedNorm_endpoints_binary64_witness :
  (mcad64_math.logToUnsignedNorm Reference.Math_log 20 20 20000
   =? 0)%float = true /\
  mcad64_math.logToUnsignedNorm Reference.Math_log 20000 20 20000
  = 1%float.
Proof.
  apply (logToUnsignedNorm_endpoints_binary64 Reference.Math_log
           20%float 20000%float); vm_compute; reflexivity.
Defined.

(** ** NaN through the [Math] functions, on binary64 *)

Lemma add_nan_l (x : float) : (nan + x)%float = nan.
Proof. apply Prim2SF_inj. rewrite add_spec. reflexivity. Qed.

Lemma add_nan_r (x : float) : (x + nan)%float = nan.
Proof. apply Prim2SF_inj. rewrite add_spec. apply SF64add_nan_r. Qed.

Lemma sub_nan_l (x : float) : (nan - x)%float = nan.
Proof. apply Prim2SF_inj. rewrite sub_spec. reflexivity. Qed.

Lemma sub_nan_r (x : float) : (x - nan)%float = nan.
Proof. apply Prim2SF_inj. rewrite sub_spec. apply SF64sub_nan_r. Qed.

Lemma mul_nan_l (x : float) : (nan * x)%float = nan.
Proof. apply Prim2SF_inj. rewrite mul_spec. reflexivity. Qed.

Lemma mul_nan_r (x : float) : (x * nan)%float = nan.
Proof. apply Prim2SF_inj. rewrite mul_spec. apply SF64mul_nan_r. Qed.

Lemma div_nan_l (x : float) : (nan / x)%float = nan.
Proof. apply Prim2SF_inj. rewrite div_spec. reflexivity. Qed.

Lemma div_nan_r (x : float) : (x / nan)%float = nan.
Proof. apply Prim2SF_inj. rewrite div_spec. apply SF64div_nan_r. Qed.

(** X28: on binary64, for whatever [Math.log], [Math.exp] and [Math.pow]
    the engine provides, as long as they send NaN to NaN as the language
    requires, NaN as any one argument of [unsignedNormToLog],
    [logToUnsignedNorm] or [midiNoteToHz] gives NaN, whatever the other
    arguments. *)
Theorem NaN_propagates_math (Math_log Math_exp : float -> float)
  (Math_pow : float -> float -> float) (x y : float) :
  mcad64_math.NaN_to_NaN Math_log Math_exp Math_pow ->
  (mcad64_math.unsignedNormToLog Math_log Math_exp nan x y = nan /\
   mcad64_math.unsignedNormToLog Math_log Math_exp x nan y = nan /\
   mcad64_math.unsignedNormToLog Math_log Math_exp x y nan = nan) /\
  (mcad64_math.logToUnsignedNorm Math_log nan x y = nan /\
   mcad64_math.logToUnsignedNorm Math_log x nan y = nan /\
   mcad64_math.logToUnsignedNorm Math_log x y nan = nan) /\
  mcad64_math.midiNoteToHz Math_pow nan = nan.
Proof.
  intros (Hl & He & Hp).
  unfold mcad64_math.unsignedNormToLog, mcad64_math.logToUnsignedNorm,
    mcad64_math.midiNoteToHz; cbv zeta.
  rewrite Hl.
  repeat split;
    rewrite ?sub_nan_l, ?sub_nan_r, ?mul_nan_l, ?mul_nan_r,
      ?add_nan_l, ?add_nan_r, ?div_nan_l, ?div_nan_r, ?Hp, ?mul_nan_r;
    auto.
Qed.

Lemma NaN_propagates_math_witness :
  mcad64_math.unsignedNormToLog Reference.Math_log Reference.Math_exp
    nan 20 20000 = nan /\
  mcad64_math.logToUnsignedNorm Reference.Math_log 20 nan 20000 = nan /\
  mcad64_math.midiNoteToHz Reference.Math_pow nan = nan.
Proof.
  assert (H : mcad64_math.NaN_to_NaN Reference.Math_log Reference.Math_exp
                Reference.Math_pow).
  { split; [reflexivity | split; [reflexivity | intros x; reflexivity]]. }
  destruct (NaN_propagates_math _ _ _ 20%float 20000%float H)
    as ((Hu & _) & (_ & Hm & _) & Hn).
  split; [exact Hu | split; [exact Hm | exact Hn]].
Defined.

End mcad64_facts.
